(** * The dm_control "finger" task of envpool

    A shallow embedding of [envpool/mujoco/dmc/finger.h]: the task layer that
    sits between the MuJoCo engine and the episode interface (construction by
    task name, episode initialisation with rejection sampling of the joint
    angles, the observation record and the reward of the three variants
    spin / turn_easy / turn_hard).

    The header is compiled without [ENVPOOL_TEST]; the two diagnostic fields
    guarded by that macro are not part of the model. *)

From Stdlib Require Import Floats ZArith QArith Reals Lra.
From stdpp Require Import base functions strings gmap.


(** ** Numbers

    [mjtNum] is MuJoCo's floating-point typedef ([double], or [float] under
    [mjUSESINGLE]).  The task code only uses the operations below, so the
    embedding is written once over this interface.  Two instances follow:
    IEEE binary64 (the kernel's primitive floats, with the three [<cmath>]
    functions that have no primitive counterpart supplied by the caller) and
    the real numbers (the exact meaning of the same operations). *)

Class MjtNum (num : Type) := {
  num_lit : Q -> num;             (* a decimal literal of the source *)
  num_add : num -> num -> num;
  num_sub : num -> num -> num;
  num_mul : num -> num -> num;
  num_opp : num -> num;
  num_leb : num -> num -> bool;   (* operator<= *)
  num_sqrt : num -> num;          (* std::sqrt *)
  num_sin : num -> num;           (* std::sin *)
  num_cos : num -> num;           (* std::cos *)
  num_log1p : num -> num;         (* std::log1p *)
  M_PI : num;
  num_one_ne_zero : num_lit 1 <> num_lit 0
}.

Definition Rleb (x y : R) : bool := if Rle_dec x y then true else false.

Lemma Rleb_true (x y : R) : Rleb x y = true <-> (x <= y)%R.
Proof. unfold Rleb. destruct (Rle_dec x y); split; intros; try lra; auto; discriminate. Qed.

Lemma real_one_ne_zero : Q2R 1 <> Q2R 0.
Proof. unfold Q2R; simpl. lra. Qed.

#[export] Instance real_MjtNum : MjtNum R := {|
  num_lit := Q2R;
  num_add := Rplus;
  num_sub := Rminus;
  num_mul := Rmult;
  num_opp := Ropp;
  num_leb := Rleb;
  num_sqrt := R_sqrt.sqrt;
  num_sin := Rtrigo_def.sin;
  num_cos := Rtrigo_def.cos;
  num_log1p := fun x => ln (1 + x);
  M_PI := PI;
  num_one_ne_zero := real_one_ne_zero
|}.

Definition float_lit (q : Q) : float :=
  let n := PrimFloat.of_uint63 (Uint63.of_Z (Z.abs (Qnum q))) in
  let d := PrimFloat.of_uint63 (Uint63.of_Z (Z.pos (Qden q))) in
  let r := PrimFloat.div n d in
  if (Qnum q <? 0)%Z then PrimFloat.opp r else r.

Lemma float_one_ne_zero : float_lit 1 <> float_lit 0.
Proof.
  intros E. apply (f_equal PrimFloat.is_zero) in E. vm_compute in E. discriminate.
Qed.

Definition binary64_MjtNum (libm_sin libm_cos libm_log1p : float -> float) : MjtNum float := {|
  num_lit := float_lit;
  num_add := PrimFloat.add;
  num_sub := PrimFloat.sub;
  num_mul := PrimFloat.mul;
  num_opp := PrimFloat.opp;
  num_leb := PrimFloat.leb;
  num_sqrt := PrimFloat.sqrt;
  num_sin := libm_sin;
  num_cos := libm_cos;
  num_log1p := libm_log1p;
  M_PI := 0x1.921fb54442d18p+1%float;
  num_one_ne_zero := float_one_ne_zero
|}.

(** The literal [0.07] of the source is the binary64 number nearest to 7/100. *)
Example float_lit_007 : float_lit (7 # 100) = 0x1.1eb851eb851ecp-4%float.
Proof. reflexivity. Qed.

(** ** Exceptions

    Both failures of the header are [std::runtime_error]s that differ in
    their message. *)

Inductive exception := runtime_error (what : string).

Inductive result (A : Type) :=
| Ok (a : A)
| Throw (e : exception).
Arguments Ok {A} a.
Arguments Throw {A} e.

#[export] Instance result_ret : MRet result := fun A a => Ok a.

#[export] Instance result_bind : MBind result := fun A B k r =>
  match r with
  | Ok a => k a
  | Throw e => Throw e
  end.

#[export] Instance result_fmap : FMap result := fun A B f r =>
  match r with
  | Ok a => Ok (f a)
  | Throw e => Throw e
  end.

Definition ConfigurationError : exception :=
  runtime_error "Unknown task_name for dmc finger.".

Definition InitializationExhaustedError : exception :=
  runtime_error "Could not find a collision-free state after max_attempts attempts".

(** ** The engine

    [mjModel] and [mjData] are MuJoCo's structures.  Their arrays are reached
    through bare pointers, so an array is a total map from the index; the
    records list the arrays the task touches and keep everything else the
    engine owns (generalised coordinates, joint ranges, ...) in one field of
    a type chosen by the engine. *)

Definition array (num : Type) : Type := nat -> num.

Record mjModel (num other : Type) := {
  site_rgba : array num;
  dof_damping : array num;
  geom_size : array num;
  site_pos : array num;
  site_size : array num;
  model_other : other
}.
Arguments site_rgba {num other}.
Arguments dof_damping {num other}.
Arguments geom_size {num other}.
Arguments site_pos {num other}.
Arguments site_size {num other}.
Arguments model_other {num other}.

Record mjData (num other : Type) := {
  xanchor : array num;
  sensordata : array num;
  ncon : Z;
  data_other : other
}.
Arguments xanchor {num other}.
Arguments sensordata {num other}.
Arguments ncon {num other}.
Arguments data_other {num other}.

(** What [MujocoEnv] and the C++ library provide.  The engine reads the
    model and rewrites the data (MuJoCo takes a [const mjModel*]); the random
    generator is threaded through every draw.  Errors raised inside the
    engine are propagated unchanged by the task and are left out. *)
Class Engine (num : Type) := {
  rng : Type;                                   (* std::mt19937 *)
  model_rest : Type;
  data_rest : Type;
  uniform_real_distribution : num -> num -> rng -> num * rng;
  RandomizeLimitedAndRotationalJoints :
    mjModel num model_rest -> mjData num data_rest -> rng ->
    mjData num data_rest * rng;
  PhysicsAfterReset :
    mjModel num model_rest -> mjData num data_rest -> mjData num data_rest;
  PhysicsStep :
    mjModel num model_rest -> mjData num data_rest -> array num ->
    mjData num data_rest
}.

(** A state record handed to the pool: named slots holding scalars or
    arrays.  [Allocate] returns a record of the shared buffer; what its
    slots hold before they are assigned is an argument of [WriteState]. *)
Abbreviation State num := (gmap string (list num)).

Section Finger.
Context {num : Type} {N : MjtNum num} {E : Engine num}.

Abbreviation Model := (mjModel num model_rest).
Abbreviation Data := (mjData num data_rest).

(** Reading a [std::array] at a constant index. *)
#[local] Instance num_inhabited : Inhabited num := populate (num_lit 0).

(** The members inherited from [MujocoEnv]. *)
Record MujocoEnv := {
  model_ : Model;
  data_ : Data;
  gen_ : rng;
  reward_ : num;
  discount_ : num;
  done_ : bool
}.

Record FingerEnv := {
  base : MujocoEnv;
  dist_uniform_ : num * num;      (* the bounds of the distribution *)
  target_radius_ : num;
  is_spin_ : bool
}.

Definition kEasyTargetSize : num := num_lit (7 # 100).
Definition kHardTargetSize : num := num_lit (3 # 100).
Definition kSpinVelocity : num := num_lit 15.

Definition set_model (m : Model) (b : MujocoEnv) : MujocoEnv :=
  {| model_ := m; data_ := data_ b; gen_ := gen_ b;
     reward_ := reward_ b; discount_ := discount_ b; done_ := done_ b |}.

Definition set_data (d : Data) (b : MujocoEnv) : MujocoEnv :=
  {| model_ := model_ b; data_ := d; gen_ := gen_ b;
     reward_ := reward_ b; discount_ := discount_ b; done_ := done_ b |}.

Definition set_gen (g : rng) (b : MujocoEnv) : MujocoEnv :=
  {| model_ := model_ b; data_ := data_ b; gen_ := g;
     reward_ := reward_ b; discount_ := discount_ b; done_ := done_ b |}.

Definition set_reward (r : num) (b : MujocoEnv) : MujocoEnv :=
  {| model_ := model_ b; data_ := data_ b; gen_ := gen_ b;
     reward_ := r; discount_ := discount_ b; done_ := done_ b |}.

Definition set_base (b : MujocoEnv) (e : FingerEnv) : FingerEnv :=
  {| base := b; dist_uniform_ := dist_uniform_ e;
     target_radius_ := target_radius_ e; is_spin_ := is_spin_ e |}.

Definition set_target_radius (r : num) (e : FingerEnv) : FingerEnv :=
  {| base := base e; dist_uniform_ := dist_uniform_ e;
     target_radius_ := r; is_spin_ := is_spin_ e |}.

Definition set_site_rgba (a : array num) (m : Model) : Model :=
  {| site_rgba := a; dof_damping := dof_damping m; geom_size := geom_size m;
     site_pos := site_pos m; site_size := site_size m;
     model_other := model_other m |}.

Definition set_dof_damping (a : array num) (m : Model) : Model :=
  {| site_rgba := site_rgba m; dof_damping := a; geom_size := geom_size m;
     site_pos := site_pos m; site_size := site_size m;
     model_other := model_other m |}.

Definition set_site_pos (a : array num) (m : Model) : Model :=
  {| site_rgba := site_rgba m; dof_damping := dof_damping m;
     geom_size := geom_size m; site_pos := a; site_size := site_size m;
     model_other := model_other m |}.

Definition set_site_size (a : array num) (m : Model) : Model :=
  {| site_rgba := site_rgba m; dof_damping := dof_damping m;
     geom_size := geom_size m; site_pos := site_pos m; site_size := a;
     model_other := model_other m |}.

(** *** Construction

    [uninit] is the indeterminate value a member holds when no initialiser
    and no assignment reaches it; [b] is what the base-class constructors
    built from the asset. *)
Definition FingerEnv_new (task_name : string) (b : MujocoEnv) (uninit : num)
  : result FingerEnv :=
  let dist_uniform := (num_opp M_PI, M_PI) in
  let is_spin := bool_decide (task_name = "spin") in
  let mk r := {| base := b; dist_uniform_ := dist_uniform;
                 target_radius_ := r; is_spin_ := is_spin |} in
  if bool_decide (task_name = "turn_easy") then Ok (mk kEasyTargetSize)
  else if bool_decide (task_name = "turn_hard") then Ok (mk kHardTargetSize)
  else if negb (bool_decide (task_name = "spin")) then Throw ConfigurationError
  else Ok (mk uninit).

(** *** Sensor views *)

Definition HingeVelocity (e : FingerEnv) : num :=
  sensordata (data_ (base e)) 4.

Definition TipPosition (e : FingerEnv) : list num :=
  let s := sensordata (data_ (base e)) in
  [num_sub (s 5) (s 11); num_sub (s 7) (s 13)].

Definition BoundedPosition (e : FingerEnv) : list num :=
  let s := sensordata (data_ (base e)) in
  let tip_position := TipPosition e in
  [s 0; s 1; tip_position !!! 0; tip_position !!! 1].

Definition TargetPosition (e : FingerEnv) : list num :=
  let s := sensordata (data_ (base e)) in
  [num_sub (s 8) (s 11); num_sub (s 10) (s 13)].

Definition Touch (e : FingerEnv) : list num :=
  let s := sensordata (data_ (base e)) in
  [num_log1p (s 14); num_log1p (s 15)].

Definition Velocity (e : FingerEnv) : list num :=
  let s := sensordata (data_ (base e)) in
  [s 2; s 3; s 4].

Definition ToTarget (e : FingerEnv) : list num :=
  let target_position := TargetPosition e in
  let tip_position := TipPosition e in
  [num_sub (target_position !!! 0) (tip_position !!! 0);
   num_sub (target_position !!! 1) (tip_position !!! 1)].

Definition DistToTarget (e : FingerEnv) : num :=
  let to_target := ToTarget e in
  num_sub
    (num_sqrt (num_add (num_mul (to_target !!! 0) (to_target !!! 0))
                       (num_mul (to_target !!! 1) (to_target !!! 1))))
    (site_size (model_ (base e)) 0).

(** *** Reward and termination *)

(** [static_cast<float>(b)]. *)
Definition float_of_bool (b : bool) : num :=
  if b then num_lit 1 else num_lit 0.

Definition TaskGetReward (e : FingerEnv) : num :=
  if is_spin_ e then
    float_of_bool (num_leb (HingeVelocity e) (num_opp kSpinVelocity))
  else
    float_of_bool (num_leb (DistToTarget e) (num_lit 0)).

Definition TaskShouldTerminateEpisode (e : FingerEnv) : bool := false.

Definition IsDone (e : FingerEnv) : bool := done_ (base e).

(** *** Episode initialisation *)

(** One sample: [RandomizeLimitedAndRotationalJoints(&gen_)] followed by
    [PhysicsAfterReset()]. *)
Definition sample_attempt (b : MujocoEnv) : MujocoEnv :=
  let '(d, g) :=
    RandomizeLimitedAndRotationalJoints (model_ b) (data_ b) (gen_ b) in
  let b := set_gen g (set_data d b) in
  set_data (PhysicsAfterReset (model_ b) (data_ b)) b.

(** The [for] statement of [SetRandomJointAngles], entered with the
    statement's own counter at [i].  One unit of [fuel] is one test of the
    loop condition. *)
Fixpoint sample_loop (fuel : nat) (i max_attempts : Z) (b : MujocoEnv)
  : MujocoEnv :=
  match fuel with
  | O => b
  | S fuel' =>
      if (i <? max_attempts)%Z then
        let b := sample_attempt b in
        if (ncon (data_ b) =? 0)%Z then b
        else sample_loop fuel' (i + 1)%Z max_attempts b
      else b
  end.

(** [int i = 0; for (int i = 0; ...)]: the counter tested after the loop is
    the one declared before it, which the loop never touches. *)
Definition SetRandomJointAngles (max_attempts : Z) (e : FingerEnv)
  : result FingerEnv :=
  let i := 0%Z in
  let b' := sample_loop (Z.to_nat max_attempts) 0%Z max_attempts (base e) in
  if (i =? max_attempts)%Z then Throw InitializationExhaustedError
  else Ok (set_base b' e).

Definition TaskInitializeEpisode (e : FingerEnv) : result FingerEnv :=
  let b := base e in
  if is_spin_ e then
    let m := model_ b in
    let m := set_site_rgba (<[(3 * 0 + 3) := num_lit 0]> (site_rgba m)) m in
    let m := set_site_rgba (<[(3 * 3 + 3) := num_lit 0]> (site_rgba m)) m in
    let m := set_dof_damping (<[2 := num_lit (3 # 100)]> (dof_damping m)) m in
    SetRandomJointAngles 1000%Z (set_base (set_model m b) e)
  else
    let '(target_angle, g) :=
      uniform_real_distribution (dist_uniform_ e).1 (dist_uniform_ e).2 (gen_ b) in
    let b := set_gen g b in
    let hinge_x := xanchor (data_ b) (2 * 3 + 0) in
    let hinge_z := xanchor (data_ b) (2 * 3 + 2) in
    let m := model_ b in
    let radius :=
      num_add (num_add (geom_size m (5 * 3 + 0)) (geom_size m (5 * 1)))
              (geom_size m (5 * 2)) in
    let target_x := num_add hinge_x (num_mul radius (num_sin target_angle)) in
    let target_z := num_add hinge_z (num_mul radius (num_cos target_angle)) in
    let m := set_site_pos (<[0 := target_x]> (site_pos m)) m in
    let m := set_site_pos (<[2 := target_z]> (site_pos m)) m in
    let m := set_site_size (<[0 := target_radius_ e]> (site_size m)) m in
    SetRandomJointAngles 1000%Z (set_base (set_model m b) e).

(** *** The state record *)

Definition WriteState (e : FingerEnv) (allocated : State num) : State num :=
  let state := allocated in
  let state := <["reward" := [reward_ (base e)]]> state in
  let state := <["discount" := [discount_ (base e)]]> state in
  let bound_pos := BoundedPosition e in
  let velocity := Velocity e in
  let touch := Touch e in
  let state := <["obs:position" := bound_pos]> state in
  let state := <["obs:velocity" := velocity]> state in
  let state := <["obs:touch" := touch]> state in
  if negb (is_spin_ e) then
    let target_position := TargetPosition e in
    let state := <["obs:target_position" := target_position]> state in
    <["obs:dist_to_target" := [DistToTarget e]]> state
  else state.

(** *** Reset and Step *)

(** Modelled from the spec: [ControlReset] and [ControlStep] belong to
    [envpool/mujoco/dmc/mujoco_env.h], which is not part of the source.  By
    the control flow of the specification, a reset runs the episode
    initialiser and a step applies the action to the engine, advances the
    physics and evaluates the reward; the discount is passed through. *)
Definition ControlReset (e : FingerEnv) : result FingerEnv :=
  TaskInitializeEpisode e.

Definition ControlStep (act : array num) (e : FingerEnv) : FingerEnv :=
  let b := base e in
  let e1 := set_base (set_data (PhysicsStep (model_ b) (data_ b) act) b) e in
  set_base (set_reward (TaskGetReward e1) (base e1)) e1.

Definition Reset (e : FingerEnv) (allocated : State num)
  : result (FingerEnv * State num) :=
  e' ← ControlReset e;
  mret (e', WriteState e' allocated).

Definition Step (e : FingerEnv) (action : array num) (allocated : State num)
  : FingerEnv * State num :=
  let act := action in
  let e' := ControlStep act e in
  (e', WriteState e' allocated).

(** ** Vocabulary of the specification *)

(** The task names a configuration may carry. *)
Definition task_names : list string := ["spin"; "turn_easy"; "turn_hard"].

(** Euclidean norm and difference of planar vectors. *)
Definition euclidean_norm (v : list num) : num :=
  num_sqrt (num_add (num_mul (v !!! 0) (v !!! 0)) (num_mul (v !!! 1) (v !!! 1))).

Definition vec_sub (u v : list num) : list num :=
  [num_sub (u !!! 0) (v !!! 0); num_sub (u !!! 1) (v !!! 1)].

(** The two raw touch sensor readings (touchtop, touchbottom). *)
Definition raw_touch (e : FingerEnv) : list num :=
  [sensordata (data_ (base e)) 14; sensordata (data_ (base e)) 15].

(** The bearing drawn for the target and the position derived from it. *)
Definition target_bearing (e : FingerEnv) : num :=
  (uniform_real_distribution (dist_uniform_ e).1 (dist_uniform_ e).2
     (gen_ (base e))).1.

Definition link_radius (m : Model) : num :=
  num_add (num_add (geom_size m 15) (geom_size m 5)) (geom_size m 10).

(** Size [k] of geom [g]: MuJoCo stores the sizes of the geoms as
    [ngeom x 3] numbers, the layout the header follows in
    [geom_size[5 * 3 + 0]] and in [xanchor[2 * 3 + k]]. *)
Definition geom_axis (m : Model) (g k : nat) : num := geom_size m (3 * g + k).

(** Entry [k] of the RGBA quadruple of site [s]: MuJoCo stores the colours
    of the sites as [nsite x 4] numbers, red first and alpha last. *)
Definition site_channel (m : Model) (s k : nat) : num := site_rgba m (4 * s + k).

Definition site_alpha (m : Model) (s : nat) : num := site_channel m s 3.

(** The slots a record of the variant of [e] is said to carry. *)
Definition written_fields (e : FingerEnv) : list string :=
  ["reward"; "discount"; "obs:position"; "obs:velocity"; "obs:touch"] ++
  (if is_spin_ e then [] else ["obs:target_position"; "obs:dist_to_target"]).

(** States of a running episode: what a reset returns, and what a step
    returns from such a state. *)
Inductive in_episode : FingerEnv -> Prop :=
| episode_reset e allocated e' st :
    Reset e allocated = Ok (e', st) -> in_episode e'
| episode_step e action allocated e' st :
    in_episode e -> Step e action allocated = (e', st) -> in_episode e'.

(** The records handed out: [emits e allocated st] when a reset or a step
    ends in [e] and returns [st], written over the record [allocated]. *)
Inductive emits : FingerEnv -> State num -> State num -> Prop :=
| emits_reset e0 allocated e st :
    Reset e0 allocated = Ok (e, st) -> emits e allocated st
| emits_step e0 action allocated e st :
    Step e0 action allocated = (e, st) -> emits e allocated st.

End Finger.

(** ** A bench engine

    An engine small enough to run: the generator counts its draws, a draw
    from the distribution returns the lower bound, the joints stay where
    they are, and settling the physics reports [contacts] contacts. *)

Definition bench_engine (num : Type) (contacts : Z) : Engine num := {|
  rng := nat;
  model_rest := unit;
  data_rest := unit;
  uniform_real_distribution := fun a b g => (a, S g);
  RandomizeLimitedAndRotationalJoints := fun m d g => (d, S g);
  PhysicsAfterReset := fun m d =>
    {| xanchor := xanchor d; sensordata := sensordata d;
       ncon := contacts; data_other := data_other d |};
  PhysicsStep := fun m d act => d
|}.

Section Bench.
Context {num : Type} {N : MjtNum num}.
Variable contacts : Z.

#[local] Instance bench : Engine num := bench_engine num contacts.

(** Every array of the asset holds [fill]; the sensors read [sensor]. *)
Definition bench_base (fill : num) (sensor : array num) : MujocoEnv := {|
  model_ := {| site_rgba := fun _ => fill; dof_damping := fun _ => fill;
               geom_size := fun _ => fill; site_pos := fun _ => fill;
               site_size := fun _ => fill; model_other := tt |};
  data_ := {| xanchor := fun _ => fill; sensordata := sensor;
              ncon := 0; data_other := tt |};
  gen_ := O;
  reward_ := num_lit 0;
  discount_ := num_lit 1;
  done_ := false
|}.

Definition bench_env (spin : bool) (radius fill : num) (sensor : array num)
  : FingerEnv := {|
  base := bench_base fill sensor;
  dist_uniform_ := (num_opp M_PI, M_PI);
  target_radius_ := radius;
  is_spin_ := spin
|}.

End Bench.

(** ** The record layout *)

(** [Spec<T>(shape)] and [Spec<T>(shape, {low, high})]; a dimension of -1 is
    left open by the declaration. *)
Record ArraySpec := {
  shape : list Z;
  bounds : option (Q * Q)
}.

(** [FingerEnvFns::StateSpec]; the configuration is not consulted. *)
Definition StateSpec {Config : Type} (conf : Config)
  : list (string * ArraySpec) :=
  [("obs:position", {| shape := [4%Z]; bounds := None |});
   ("obs:velocity", {| shape := [3%Z]; bounds := None |});
   ("obs:touch", {| shape := [2%Z]; bounds := None |});
   ("obs:target_position", {| shape := [2%Z]; bounds := None |});
   ("obs:dist_to_target", {| shape := []; bounds := None |});
   ("discount", {| shape := [(-1)%Z]; bounds := Some (0%Q, 1%Q) |})].

(** The number of entries of an array whose dimensions are all fixed. *)
Definition entries (sp : ArraySpec) : Z := foldr Z.mul 1%Z (shape sp).

Definition fixed_shape (sp : ArraySpec) : Prop := Forall (fun d => (0 <= d)%Z) (shape sp).

(** Reading an array after some writes at constant indices. *)
Ltac array_lookup :=
  unfold insert, fn_insert; repeat case_decide; subst; try done; congruence.

(** Membership of a given key in a given list of keys. *)
Ltac key_present :=
  repeat first [apply list_elem_of_here | apply list_elem_of_further].

Ltac key_absent H :=
  simpl in H;
  repeat (apply elem_of_cons in H as [H|H]; [discriminate H|]);
  apply elem_of_nil in H.

(** ** Basic facts *)

Section FingerFacts.
Context {num : Type} {N : MjtNum num} {E : Engine num}.

Lemma float_of_bool_one (b : bool) : float_of_bool b = num_lit 1 <-> b = true.
Proof.
  destruct b; simpl; split; intros H; try done.
  symmetry in H. by apply num_one_ne_zero in H.
Qed.

Lemma float_of_bool_zero (b : bool) : float_of_bool b = num_lit 0 <-> b = false.
Proof.
  destruct b; simpl; split; intros H; try done.
  by apply num_one_ne_zero in H.
Qed.

Lemma TaskGetReward_spin (e : FingerEnv) :
  is_spin_ e = true ->
  TaskGetReward e =
    float_of_bool (num_leb (HingeVelocity e) (num_opp (num_lit 15))).
Proof. unfold TaskGetReward. by intros ->. Qed.

Lemma TaskGetReward_turn (e : FingerEnv) :
  is_spin_ e = false ->
  TaskGetReward e = float_of_bool (num_leb (DistToTarget e) (num_lit 0)).
Proof. unfold TaskGetReward. by intros ->. Qed.

Lemma Touch_log1p (e : FingerEnv) : Touch e = num_log1p <$> raw_touch e.
Proof. reflexivity. Qed.

Lemma DistToTarget_norm (e : FingerEnv) :
  DistToTarget e =
    num_sub (euclidean_norm (vec_sub (TargetPosition e) (TipPosition e)))
            (site_size (model_ (base e)) 0).
Proof. reflexivity. Qed.

(** ** The rejection-sampling loop *)

(** A sample only rewrites the engine data and the generator. *)
Lemma sample_attempt_frame (b : MujocoEnv) :
  model_ (sample_attempt b) = model_ b /\
  reward_ (sample_attempt b) = reward_ b /\
  discount_ (sample_attempt b) = discount_ b /\
  done_ (sample_attempt b) = done_ b.
Proof.
  unfold sample_attempt.
  by destruct (RandomizeLimitedAndRotationalJoints _ _ _) as [d g].
Qed.

Lemma sample_loop_frame (fuel : nat) (i n : Z) (b : MujocoEnv) :
  model_ (sample_loop fuel i n b) = model_ b /\
  reward_ (sample_loop fuel i n b) = reward_ b /\
  discount_ (sample_loop fuel i n b) = discount_ b /\
  done_ (sample_loop fuel i n b) = done_ b.
Proof.
  revert i b. induction fuel as [|fuel IH]; intros i b; simpl; [done|].
  destruct (i <? n)%Z; [|done].
  destruct (ncon _ =? 0)%Z; [apply sample_attempt_frame|].
  destruct (IH (i + 1)%Z (sample_attempt b)) as (-> & -> & -> & ->).
  apply sample_attempt_frame.
Qed.

Lemma sample_loop_model (fuel : nat) (i n : Z) (b : MujocoEnv) :
  model_ (sample_loop fuel i n b) = model_ b.
Proof. apply sample_loop_frame. Qed.

(** The fuel [SetRandomJointAngles] hands to the loop is never exhausted:
    any larger amount gives the same result. *)
Lemma sample_loop_fuel (fuel : nat) (i n : Z) (b : MujocoEnv) :
  (n - i <= Z.of_nat fuel)%Z ->
  sample_loop fuel i n b = sample_loop (Z.to_nat (n - i)) i n b.
Proof.
  revert i b. induction fuel as [|fuel IH]; intros i b Hf; simpl.
  - replace (Z.to_nat (n - i)) with O by lia. done.
  - destruct (Z.ltb_spec i n) as [Hlt|Hge].
    + replace (Z.to_nat (n - i)) with (S (Z.to_nat (n - (i + 1)))) by lia.
      simpl. apply Z.ltb_lt in Hlt as ->.
      destruct (ncon _ =? 0)%Z; [done|].
      apply IH. lia.
    + replace (Z.to_nat (n - i)) with O by lia. done.
Qed.

(** The loop stops at the first sample without contact... *)
Lemma sample_loop_accepted (k fuel : nat) (i n : Z) (b : MujocoEnv) :
  (k < fuel)%nat -> (i + Z.of_nat k < n)%Z ->
  (forall j, (j < k)%nat ->
     ncon (data_ (Nat.iter (S j) sample_attempt b)) <> 0%Z) ->
  ncon (data_ (Nat.iter (S k) sample_attempt b)) = 0%Z ->
  sample_loop fuel i n b = Nat.iter (S k) sample_attempt b.
Proof.
  revert fuel i b. induction k as [|k IH]; intros fuel i b Hk Hi Hbusy Hfree.
  - destruct fuel as [|fuel]; [lia|]. simpl in *.
    destruct (Z.ltb_spec i n); [|lia]. by rewrite Hfree.
  - destruct fuel as [|fuel]; [lia|]. simpl sample_loop.
    destruct (Z.ltb_spec i n); [|lia].
    destruct (Z.eqb_spec (ncon (data_ (sample_attempt b))) 0) as [H0|_].
    { by destruct (Hbusy O); [lia|]. }
    rewrite (IH fuel (i + 1)%Z (sample_attempt b)); [|lia|lia| |].
    + by rewrite <- Nat.iter_succ_r.
    + intros j Hj. rewrite <- Nat.iter_succ_r. apply (Hbusy (S j)). lia.
    + by rewrite <- Nat.iter_succ_r.
Qed.

(** ... and otherwise runs through every attempt left to it. *)
Lemma sample_loop_exhausted (fuel : nat) (i n : Z) (b : MujocoEnv) :
  (i + Z.of_nat fuel <= n)%Z ->
  (forall j, (j < fuel)%nat ->
     ncon (data_ (Nat.iter (S j) sample_attempt b)) <> 0%Z) ->
  sample_loop fuel i n b = Nat.iter fuel sample_attempt b.
Proof.
  revert i b. induction fuel as [|fuel IH]; intros i b Hi Hbusy; [done|].
  simpl sample_loop.
  destruct (Z.ltb_spec i n); [|lia].
  destruct (Z.eqb_spec (ncon (data_ (sample_attempt b))) 0) as [H0|_].
  { by destruct (Hbusy O); [lia|]. }
  rewrite (IH (i + 1)%Z (sample_attempt b)); [|lia|].
  - by rewrite <- Nat.iter_succ_r.
  - intros j Hj. rewrite <- Nat.iter_succ_r. apply (Hbusy (S j)). lia.
Qed.

(** The test after the loop reads the counter declared before it, which is
    still [0]: for a bound other than [0] the call returns whatever the
    loop left. *)
Lemma SetRandomJointAngles_nonzero (n : Z) (e : FingerEnv) :
  n <> 0%Z ->
  SetRandomJointAngles n e =
    Ok (set_base (sample_loop (Z.to_nat n) 0 n (base e)) e).
Proof.
  intros Hn. unfold SetRandomJointAngles.
  destruct (Z.eqb_spec 0 n) as [<-|_]; [done|reflexivity].
Qed.

Lemma SetRandomJointAngles_zero (e : FingerEnv) :
  SetRandomJointAngles 0 e = Throw InitializationExhaustedError.
Proof. reflexivity. Qed.

Arguments sample_loop : simpl never.

(** ** Episode initialisation *)

Lemma TaskInitializeEpisode_spin (e : FingerEnv) :
  is_spin_ e = true ->
  exists b',
    TaskInitializeEpisode e = Ok (set_base b' e) /\
    site_rgba (model_ b') =
      <[12 := num_lit 0]> (<[3 := num_lit 0]> (site_rgba (model_ (base e)))) /\
    dof_damping (model_ b') =
      <[2 := num_lit (3 # 100)]> (dof_damping (model_ (base e))) /\
    geom_size (model_ b') = geom_size (model_ (base e)) /\
    site_pos (model_ b') = site_pos (model_ (base e)) /\
    site_size (model_ b') = site_size (model_ (base e)).
Proof.
  intros Hspin. unfold TaskInitializeEpisode. rewrite Hspin.
  rewrite SetRandomJointAngles_nonzero by done.
  eexists. split; [reflexivity|].
  rewrite sample_loop_model. done.
Qed.

Lemma TaskInitializeEpisode_turn (e : FingerEnv) :
  is_spin_ e = false ->
  let m := model_ (base e) in
  let target_x :=
    num_add (xanchor (data_ (base e)) 6)
            (num_mul (link_radius m) (num_sin (target_bearing e))) in
  let target_z :=
    num_add (xanchor (data_ (base e)) 8)
            (num_mul (link_radius m) (num_cos (target_bearing e))) in
  exists b',
    TaskInitializeEpisode e = Ok (set_base b' e) /\
    site_pos (model_ b') = <[2 := target_z]> (<[0 := target_x]> (site_pos m)) /\
    site_size (model_ b') = <[0 := target_radius_ e]> (site_size m) /\
    site_rgba (model_ b') = site_rgba m /\
    dof_damping (model_ b') = dof_damping m /\
    geom_size (model_ b') = geom_size m.
Proof.
  intros Hturn. unfold TaskInitializeEpisode, target_bearing. rewrite Hturn.
  destruct (uniform_real_distribution _ _ _) as [target_angle g].
  rewrite SetRandomJointAngles_nonzero by done.
  eexists. split; [reflexivity|].
  rewrite sample_loop_model. done.
Qed.

(** Initialisation never touches the members of [FingerEnv] itself. *)
Lemma TaskInitializeEpisode_members (e e' : FingerEnv) :
  TaskInitializeEpisode e = Ok e' ->
  is_spin_ e' = is_spin_ e /\ target_radius_ e' = target_radius_ e /\
  dist_uniform_ e' = dist_uniform_ e.
Proof.
  destruct (is_spin_ e) eqn:Hs.
  - destruct (TaskInitializeEpisode_spin e Hs) as (b' & -> & _).
    intros [= <-]. by rewrite <- Hs.
  - destruct (TaskInitializeEpisode_turn e Hs) as (b' & -> & _).
    intros [= <-]. by rewrite <- Hs.
Qed.

Lemma Reset_Ok (e : FingerEnv) (allocated : State num) (e' : FingerEnv)
    (st : State num) :
  Reset e allocated = Ok (e', st) <->
  TaskInitializeEpisode e = Ok e' /\ st = WriteState e' allocated.
Proof.
  unfold Reset, ControlReset.
  destruct (TaskInitializeEpisode e) as [e1|err]; simpl; split.
  - by intros [= -> <-].
  - by intros [[= ->] ->].
  - done.
  - by intros [? _].
Qed.

Lemma Step_eq (e : FingerEnv) (action : array num) (allocated : State num)
    (e' : FingerEnv) (st : State num) :
  Step e action allocated = (e', st) ->
  st = WriteState e' allocated /\
  model_ (base e') = model_ (base e) /\
  is_spin_ e' = is_spin_ e /\ target_radius_ e' = target_radius_ e /\
  dist_uniform_ e' = dist_uniform_ e.
Proof. unfold Step, ControlStep. by intros [= <- <-]. Qed.

(** Within an episode of a turn variant the size of the target site is the
    radius of the variant. *)
Lemma in_episode_target_radius (e : FingerEnv) :
  in_episode e -> is_spin_ e = false ->
  site_size (model_ (base e)) 0 = target_radius_ e.
Proof.
  induction 1 as [e allocated e' st HR | e action allocated e' st _ IH HS];
    intros Hturn.
  - apply Reset_Ok in HR as [HI _].
    destruct (TaskInitializeEpisode_members _ _ HI) as (Hs & _ & _).
    rewrite Hs in Hturn.
    destruct (TaskInitializeEpisode_turn e Hturn) as (b' & HI' & _ & Hsize & _).
    rewrite HI' in HI. injection HI as <-. simpl. by rewrite Hsize.
  - apply Step_eq in HS as (_ & Hm & Hs & Hr & _).
    rewrite Hm, Hr. apply IH. by rewrite <- Hs.
Qed.

(** Under an engine that reports a contact after every sample, the loop
    leaves a state in contact. *)
Lemma sample_loop_in_contact (fuel : nat) (i n : Z) (b : MujocoEnv) :
  (forall m d, ncon (PhysicsAfterReset m d) <> 0%Z) ->
  (0 < fuel)%nat -> (i < n)%Z ->
  ncon (data_ (sample_loop fuel i n b)) <> 0%Z.
Proof.
  intros Hbusy. revert i b.
  assert (Ha : forall b, ncon (data_ (sample_attempt b)) <> 0%Z).
  { intros b. unfold sample_attempt.
    destruct (RandomizeLimitedAndRotationalJoints _ _ _) as [d g].
    apply Hbusy. }
  induction fuel as [|fuel IH]; intros i b Hf Hi; [lia|].
  change (sample_loop (S fuel) i n b) with
    (if (i <? n)%Z then
       if (ncon (data_ (sample_attempt b)) =? 0)%Z then sample_attempt b
       else sample_loop fuel (i + 1)%Z n (sample_attempt b)
     else b).
  destruct (Z.ltb_spec i n) as [_|Hge]; [|lia].
  destruct (Z.eqb_spec (ncon (data_ (sample_attempt b))) 0) as [H0|_].
  { by destruct (Ha b). }
  destruct fuel as [|fuel]; [apply Ha|].
  destruct (Z.ltb_spec (i + 1) n) as [Hlt|Hge].
  - apply IH; lia.
  - unfold sample_loop. apply Z.ltb_ge in Hge as ->. apply Ha.
Qed.

(** Whatever the bound, a run in which every sample is in contact ends
    without the error as soon as the bound is positive. *)
Lemma SetRandomJointAngles_all_in_contact (n : Z) (e : FingerEnv) :
  (0 < n)%Z ->
  (forall j, (j < Z.to_nat n)%nat ->
     ncon (data_ (Nat.iter (S j) sample_attempt (base e))) <> 0%Z) ->
  SetRandomJointAngles n e =
    Ok (set_base (Nat.iter (Z.to_nat n) sample_attempt (base e)) e) /\
  ncon (data_ (Nat.iter (Z.to_nat n) sample_attempt (base e))) <> 0%Z.
Proof.
  intros Hn. generalize (Z2Nat.id n ltac:(lia)).
  generalize (Z.to_nat n) as k. intros k Hk Hbusy. split.
  - unfold SetRandomJointAngles.
    destruct (Z.eqb_spec 0 n) as [H0|_]; [lia|].
    replace (Z.to_nat n) with k by lia.
    rewrite sample_loop_exhausted; [done|lia|done].
  - destruct k as [|k]; [lia|]. apply Hbusy. lia.
Qed.

(** Initialisation always returns: the only exception it could raise is the
    one of [SetRandomJointAngles]. *)
Lemma TaskInitializeEpisode_returns (e : FingerEnv) :
  exists e', TaskInitializeEpisode e = Ok e'.
Proof.
  destruct (is_spin_ e) eqn:Hs.
  - destruct (TaskInitializeEpisode_spin e Hs) as (b' & -> & _). by eexists.
  - destruct (TaskInitializeEpisode_turn e Hs) as (b' & -> & _). by eexists.
Qed.

Lemma TaskInitializeEpisode_in_contact (e e' : FingerEnv) :
  (forall m d, ncon (PhysicsAfterReset m d) <> 0%Z) ->
  TaskInitializeEpisode e = Ok e' ->
  ncon (data_ (base e')) <> 0%Z.
Proof.
  intros Hbusy. unfold TaskInitializeEpisode. destruct (is_spin_ e).
  - rewrite SetRandomJointAngles_nonzero by done. intros [= <-].
    cbn [base set_base]. apply sample_loop_in_contact; [done|lia|lia].
  - destruct (uniform_real_distribution _ _ _) as [target_angle g].
    rewrite SetRandomJointAngles_nonzero by done. intros [= <-].
    cbn [base set_base]. apply sample_loop_in_contact; [done|lia|lia].
Qed.

(** ** Properties of the specification *)

(** C7.  Construction succeeds exactly for the task names "spin",
    "turn_easy" and "turn_hard"; for every other name it fails with the
    configuration error. *)
Theorem FingerEnv_new_task_names (task_name : string) (b : MujocoEnv)
    (uninit : num) :
  (task_name ∈ task_names <->
     exists e, FingerEnv_new task_name b uninit = Ok e) /\
  (task_name ∉ task_names <->
     FingerEnv_new task_name b uninit = Throw ConfigurationError).
Proof.
  assert (Hin : task_name ∈ task_names <->
            task_name = "spin" \/ task_name = "turn_easy" \/
            task_name = "turn_hard").
  { unfold task_names. rewrite !elem_of_cons, elem_of_nil. tauto. }
  unfold not. rewrite Hin. unfold FingerEnv_new.
  destruct (decide (task_name = "turn_easy")) as [->|Heasy].
  { simpl. split; split; try done; eauto. intros Hx. destruct Hx. auto. }
  rewrite (bool_decide_eq_false_2 _ Heasy).
  destruct (decide (task_name = "turn_hard")) as [->|Hhard].
  { simpl. split; split; try done; eauto. intros Hx. destruct Hx. auto. }
  rewrite (bool_decide_eq_false_2 _ Hhard).
  destruct (decide (task_name = "spin")) as [->|Hspin].
  { simpl. split; split; try done; eauto. intros Hx. destruct Hx. auto. }
  rewrite (bool_decide_eq_false_2 _ Hspin). simpl.
  split; split; try done.
  - intros [Hx|[Hx|Hx]]; done.
  - by intros [e He].
  - intros Hx. tauto.
Qed.

(** C4.  For the spin variant the reward is 1.0 exactly when the hinge
    angular velocity is at most -15.0, and 0.0 exactly when it is not. *)
Theorem spin_reward_threshold (e : FingerEnv) :
  is_spin_ e = true ->
  HingeVelocity e = sensordata (data_ (base e)) 4 /\
  (TaskGetReward e = num_lit 1 <->
     num_leb (HingeVelocity e) (num_opp (num_lit 15)) = true) /\
  (TaskGetReward e = num_lit 0 <->
     num_leb (HingeVelocity e) (num_opp (num_lit 15)) = false).
Proof.
  intros Hspin. rewrite (TaskGetReward_spin e Hspin).
  split; [reflexivity|].
  split; [apply float_of_bool_one | apply float_of_bool_zero].
Qed.

(** C3.  For the turn variants, at every state of an episode,
    dist_to_target is the Euclidean norm of target_position - tip_position
    minus the radius of the target, and the reward is 1.0 exactly when
    dist_to_target is at most 0.0, and 0.0 exactly when it is not. *)
Theorem turn_dist_to_target_reward (e : FingerEnv) :
  in_episode e -> is_spin_ e = false ->
  DistToTarget e =
    num_sub (euclidean_norm (vec_sub (TargetPosition e) (TipPosition e)))
            (target_radius_ e) /\
  (TaskGetReward e = num_lit 1 <->
     num_leb (DistToTarget e) (num_lit 0) = true) /\
  (TaskGetReward e = num_lit 0 <->
     num_leb (DistToTarget e) (num_lit 0) = false).
Proof.
  intros Hep Hturn. rewrite (TaskGetReward_turn e Hturn).
  split; [|split; [apply float_of_bool_one | apply float_of_bool_zero]].
  rewrite DistToTarget_norm. f_equal.
  by apply in_episode_target_radius.
Qed.

(** C5 (what the code does).  For the turn variants, episode initialisation
    draws the bearing from the distribution on [-pi, pi), places the target
    at the hinge anchor plus a radius times (sin, cos) of the bearing on
    the x and z axes, and writes that position and the radius of the
    variant (0.07 for turn_easy, 0.03 for turn_hard) into the position and
    the size of the target site.  The radius it uses is size 0 of geom 5
    plus size 2 of geom 1 plus size 1 of geom 3: the reads written
    [5 * 1] and [5 * 2] lack the stride of [5 * 3 + 0], so sizes 1 and 2 of
    geom 5 do not enter. *)
Theorem turn_initialize_target (task_name : string) (b : MujocoEnv)
    (uninit : num) (e : FingerEnv) :
  task_name = "turn_easy" \/ task_name = "turn_hard" ->
  FingerEnv_new task_name b uninit = Ok e ->
  let bearing :=
    (uniform_real_distribution (num_opp M_PI) M_PI (gen_ b)).1 in
  let hinge_x := xanchor (data_ b) 6 in
  let hinge_z := xanchor (data_ b) 8 in
  let radius :=
    num_add (num_add (geom_axis (model_ b) 5 0) (geom_axis (model_ b) 1 2))
            (geom_axis (model_ b) 3 1) in
  exists e',
    TaskInitializeEpisode e = Ok e' /\
    site_pos (model_ (base e')) 0 =
      num_add hinge_x (num_mul radius (num_sin bearing)) /\
    site_pos (model_ (base e')) 2 =
      num_add hinge_z (num_mul radius (num_cos bearing)) /\
    site_size (model_ (base e')) 0 =
      (if bool_decide (task_name = "turn_easy") then num_lit (7 # 100)
       else num_lit (3 # 100)).
Proof.
  intros Hname Hnew bearing hinge_x hinge_z radius.
  assert (He : e = {| base := b; dist_uniform_ := (num_opp M_PI, M_PI);
                      target_radius_ :=
                        (if bool_decide (task_name = "turn_easy")
                         then num_lit (7 # 100) else num_lit (3 # 100));
                      is_spin_ := false |}).
  { destruct Hname as [-> | ->]; by injection Hnew as <-. }
  clear Hnew.
  destruct (TaskInitializeEpisode_turn e) as (b' & HI & Hpos & Hsize & _).
  { by rewrite He. }
  exists (set_base b' e). split; [done|]. simpl.
  rewrite Hpos, Hsize. rewrite He. done.
Qed.

(** C9 (amended).  In every record returned by a reset or a step,
    position, velocity, touch, reward and discount are assigned;
    target_position and dist_to_target are assigned for the turn variants.
    For the spin variant the two are never assigned, yet their slots are
    part of the record, declared by [StateSpec] whatever the variant, and
    keep what the allocated record held.  No other slot is touched. *)
Theorem state_record_fields {Config : Type} (conf : Config) (e : FingerEnv)
    (allocated st : State num) :
  emits e allocated st ->
  st !! "obs:position" = Some (BoundedPosition e) /\
  st !! "obs:velocity" = Some (Velocity e) /\
  st !! "obs:touch" = Some (Touch e) /\
  st !! "reward" = Some [reward_ (base e)] /\
  st !! "discount" = Some [discount_ (base e)] /\
  ("obs:target_position", {| shape := [2%Z]; bounds := None |})
    ∈ StateSpec conf /\
  ("obs:dist_to_target", {| shape := []; bounds := None |})
    ∈ StateSpec conf /\
  (if is_spin_ e then
     st !! "obs:target_position" = allocated !! "obs:target_position" /\
     st !! "obs:dist_to_target" = allocated !! "obs:dist_to_target"
   else
     st !! "obs:target_position" = Some (TargetPosition e) /\
     st !! "obs:dist_to_target" = Some [DistToTarget e]) /\
  (forall field, field ∉ written_fields e ->
     st !! field = allocated !! field).
Proof.
  intros Hemit.
  assert (Hst : st = WriteState e allocated).
  { destruct Hemit as [e0 allocated e st HR | e0 action allocated e st HS].
    - by apply Reset_Ok in HR as [_ ->].
    - by apply Step_eq in HS as [-> _]. }
  subst st.
  assert (Hdecl :
    ("obs:target_position", {| shape := [2%Z]; bounds := None |})
      ∈ StateSpec conf /\
    ("obs:dist_to_target", {| shape := []; bounds := None |})
      ∈ StateSpec conf).
  { unfold StateSpec. split; key_present. }
  destruct Hdecl as [Hdecl1 Hdecl2].
  unfold WriteState, written_fields.
  destruct (is_spin_ e); simpl;
    (repeat split; [by simplify_map_eq ..|]);
    intros field Hfield;
    repeat (rewrite lookup_insert_ne;
            [|intros <-; apply Hfield; simpl; key_present]);
    done.
Qed.

(** C10.  The constructor leaves target_radius_ unassigned for the spin
    variant, and nothing the spin variant does afterwards depends on the
    value the member happens to hold. *)
Theorem spin_ignores_target_radius (b : MujocoEnv) (uninit : num)
    (e : FingerEnv) :
  FingerEnv_new "spin" b uninit = Ok e ->
  target_radius_ e = uninit /\
  forall (r : num) (b1 : MujocoEnv),
    let e1 := set_base b1 e in
    forall (action : array num) (allocated : State num),
      TaskInitializeEpisode (set_target_radius r e1) =
        set_target_radius r <$> TaskInitializeEpisode e1 /\
      Reset (set_target_radius r e1) allocated =
        prod_map (set_target_radius r) (fun st => st) <$> Reset e1 allocated /\
      Step (set_target_radius r e1) action allocated =
        prod_map (set_target_radius r) (fun st => st) (Step e1 action allocated) /\
      TaskGetReward (set_target_radius r e1) = TaskGetReward e1 /\
      WriteState (set_target_radius r e1) allocated = WriteState e1 allocated.
Proof.
  intros [= <-]. split; [done|].
  intros r b1 e1 action allocated.
  assert (HI : TaskInitializeEpisode (set_target_radius r e1) =
                 set_target_radius r <$> TaskInitializeEpisode e1).
  { unfold TaskInitializeEpisode. simpl.
    by rewrite !SetRandomJointAngles_nonzero. }
  split; [done|].
  split; [|done].
  unfold Reset, ControlReset. rewrite HI.
  by destruct (TaskInitializeEpisode e1).
Qed.

(** C1 (what the code does).  When each of the 1000 samples leaves the
    engine in contact, [SetRandomJointAngles] still returns normally, with
    the last sample installed: the exhaustion error is not raised. *)
Theorem SetRandomJointAngles_exhausted_returns (e : FingerEnv) :
  (forall j, (j < Z.to_nat 1000)%nat ->
     ncon (data_ (Nat.iter (S j) sample_attempt (base e))) <> 0%Z) ->
  SetRandomJointAngles 1000 e =
    Ok (set_base (Nat.iter (Z.to_nat 1000) sample_attempt (base e)) e) /\
  ncon (data_ (Nat.iter (Z.to_nat 1000) sample_attempt (base e))) <> 0%Z.
Proof. apply SetRandomJointAngles_all_in_contact. lia. Qed.

(** C2 (what the code does).  Under an engine that reports a contact after
    every sample, a reset completes without an error and writes its record
    while the contact count is not zero. *)
Theorem Reset_completes_in_contact (e : FingerEnv) (allocated : State num) :
  (forall m d, ncon (PhysicsAfterReset m d) <> 0%Z) ->
  exists e',
    Reset e allocated = Ok (e', WriteState e' allocated) /\
    ncon (data_ (base e')) <> 0%Z.
Proof.
  intros Hbusy.
  destruct (TaskInitializeEpisode_returns e) as [e' HI].
  exists e'. split.
  - apply Reset_Ok. by split.
  - by apply (TaskInitializeEpisode_in_contact e).
Qed.

(** C6 (what the code does).  For the spin variant, episode initialisation
    sets the hinge damping to 0.03 and clears entries 3 and 12 of the site
    colours: the alpha of site 0 and the red channel of site 3.  The alpha
    of site 3 keeps its value. *)
Theorem spin_initialize_writes (e : FingerEnv) :
  is_spin_ e = true ->
  exists e',
    TaskInitializeEpisode e = Ok e' /\
    dof_damping (model_ (base e')) 2 = num_lit (3 # 100) /\
    site_alpha (model_ (base e')) 0 = num_lit 0 /\
    site_channel (model_ (base e')) 3 0 = num_lit 0 /\
    site_alpha (model_ (base e')) 3 = site_alpha (model_ (base e)) 3.
Proof.
  intros Hspin.
  destruct (TaskInitializeEpisode_spin e Hspin) as (b' & HI & Hrgba & Hdamp & _).
  exists (set_base b' e). split; [done|].
  unfold site_alpha, site_channel. simpl. rewrite Hrgba, Hdamp. done.
Qed.

(** X1.  When sample [k + 1], one of the 1000, is the first that leaves the
    engine without contact, [SetRandomJointAngles] returns with that sample
    installed and a contact count of 0. *)
Theorem SetRandomJointAngles_accepts_first_free (e : FingerEnv) (k : nat) :
  (k < Z.to_nat 1000)%nat ->
  (forall j, (j < k)%nat ->
     ncon (data_ (Nat.iter (S j) sample_attempt (base e))) <> 0%Z) ->
  ncon (data_ (Nat.iter (S k) sample_attempt (base e))) = 0%Z ->
  exists e',
    SetRandomJointAngles 1000 e = Ok e' /\
    base e' = Nat.iter (S k) sample_attempt (base e) /\
    ncon (data_ (base e')) = 0%Z.
Proof.
  intros Hk Hbusy Hfree.
  rewrite SetRandomJointAngles_nonzero by done.
  eexists. split; [reflexivity|]. cbn [base set_base].
  rewrite (sample_loop_accepted k) by (done || lia).
  done.
Qed.

End FingerFacts.

(** ** The touch observation over the reals

    [std::log1p] is the function x |-> ln (1 + x) on the readings above -1,
    where it is defined; the order facts below are those of that function. *)

Section TouchReal.
Context {E : Engine R}.
Local Open Scope R_scope.

Lemma log1p_monotone (x y : R) : -1 < x -> x <= y -> ln (1 + x) <= ln (1 + y).
Proof.
  intros Hx [Hlt | ->]; [|lra].
  left. apply ln_increasing; lra.
Qed.

Lemma log1p_nonneg (x : R) : 0 <= x -> 0 <= ln (1 + x).
Proof.
  intros Hx. rewrite <- ln_1.
  replace (ln 1) with (ln (1 + 0)) by (f_equal; lra).
  apply log1p_monotone; lra.
Qed.

(** C8.  The touch observation is the elementwise log1p of the two raw
    touch readings; hence each of its entries does not decrease when the
    reading grows, and is at least 0 when the reading is. *)
Theorem touch_log1p_monotone_nonneg (e e' : FingerEnv) (k : nat) (x x' : R) :
  raw_touch e !! k = Some x ->
  raw_touch e' !! k = Some x' ->
  -1 < x -> x <= x' ->
  Touch e = num_log1p <$> raw_touch e /\
  Touch e' = num_log1p <$> raw_touch e' /\
  exists y y',
    Touch e !! k = Some y /\ Touch e' !! k = Some y' /\
    y = ln (1 + x) /\ y' = ln (1 + x') /\
    y <= y' /\
    (0 <= x -> 0 <= y).
Proof.
  intros Hx Hx' Hdom Hle.
  rewrite !Touch_log1p. split; [done|]. split; [done|].
  exists (ln (1 + x)), (ln (1 + x')).
  rewrite !list_lookup_fmap, Hx, Hx'. simpl.
  repeat split; try done.
  - by apply log1p_monotone.
  - apply log1p_nonneg.
Qed.

End TouchReal.


(** ** Positions relative to the spinner, over the reals *)

Section SpinnerFrame.
Context {E : Engine R}.
Local Open Scope R_scope.

(** The same scene with tip (5, 7), target (8, 10) and spinner (11, 13)
    moved by [(dx, dz)] in the plane. *)
Definition translate_scene (dx dz : R) (s : array R) : array R :=
  fun i =>
    if decide (i ∈ [5; 8; 11]%nat) then s i + dx
    else if decide (i ∈ [7; 10; 13]%nat) then s i + dz
    else s i.

Definition with_sensordata (s : array R) (e : FingerEnv) : FingerEnv :=
  set_base
    (set_data {| xanchor := xanchor (data_ (base e)); sensordata := s;
                 ncon := ncon (data_ (base e));
                 data_other := data_other (data_ (base e)) |} (base e)) e.

(** X2.  The tip and target positions, and with them the distance to the
    target and the reward, do not change when the scene is translated
    together with the spinner. *)
Theorem positions_translation_invariant (dx dz : R) (e : FingerEnv) :
  let e' := with_sensordata (translate_scene dx dz (sensordata (data_ (base e)))) e in
  TipPosition e' = TipPosition e /\
  TargetPosition e' = TargetPosition e /\
  DistToTarget e' = DistToTarget e /\
  (is_spin_ e = false -> TaskGetReward e' = TaskGetReward e).
Proof.
  intros e'.
  assert (Htip : TipPosition e' = TipPosition e).
  { unfold TipPosition, e'. simpl. unfold translate_scene. simpl.
    f_equal; [|f_equal]; ring. }
  assert (Htarget : TargetPosition e' = TargetPosition e).
  { unfold TargetPosition, e'. simpl. unfold translate_scene. simpl.
    f_equal; [|f_equal]; ring. }
  assert (Hdist : DistToTarget e' = DistToTarget e).
  { unfold DistToTarget, ToTarget. by rewrite Htip, Htarget. }
  repeat split; try done.
  intros Hturn. unfold TaskGetReward.
  replace (is_spin_ e') with (is_spin_ e) by done.
  by rewrite Hturn, Hdist.
Qed.

End SpinnerFrame.

(** ** The bench at work *)

Section BenchFacts.
Context {num : Type} {N : MjtNum num}.
Variable contacts : Z.

(** On the bench every sample is one draw, and leaves [contacts] contacts. *)
Lemma bench_attempts (n : nat) (b : @MujocoEnv num (bench contacts)) :
  gen_ (Nat.iter n sample_attempt b) = (n + gen_ b)%nat /\
  (forall j, ncon (data_ (Nat.iter (S j) sample_attempt b)) = contacts).
Proof.
  split.
  - induction n as [|n IH]; [done|].
    rewrite Nat.iter_succ. unfold sample_attempt at 1. simpl. by rewrite IH.
  - intros j. rewrite Nat.iter_succ. reflexivity.
Qed.

End BenchFacts.

(** *** Over the reals *)

(** A spinner turning at exactly the threshold speed. *)
Definition spin_at_threshold : @FingerEnv R (bench 0) :=
  bench_env 0 true 0%R 1%R (fun _ => (-15)%R).

Lemma spin_reward_threshold_witness :
  TaskGetReward spin_at_threshold = num_lit 1.
Proof.
  apply (spin_reward_threshold spin_at_threshold eq_refl).
  apply Rleb_true. change (-15 <= - Q2R 15)%R. unfold Q2R. simpl. lra.
Defined.

(** The target sensor sits 0.07 to the right of the tip and the spinner:
    the tip is on the rim of the easy target. *)
Definition tip_on_rim : array R :=
  fun i => if decide (i = 8%nat) then Q2R (7 # 100) else 0%R.

Definition turn_easy_fresh : @FingerEnv R (bench 0) :=
  bench_env 0 false (Q2R (7 # 100)) 1%R tip_on_rim.

Definition spin_named : @FingerEnv R (bench 0) :=
  bench_env 0 true 0%R 1%R tip_on_rim.

Definition turn_easy_started : @FingerEnv R (bench 0) :=
  match TaskInitializeEpisode turn_easy_fresh with
  | Ok e => e
  | Throw _ => turn_easy_fresh
  end.

Lemma turn_easy_started_in_episode : in_episode turn_easy_started.
Proof.
  apply (episode_reset turn_easy_fresh ∅ _ (WriteState turn_easy_started ∅)).
  reflexivity.
Defined.

Lemma turn_dist_to_target_reward_witness :
  DistToTarget turn_easy_started =
    num_sub (euclidean_norm (vec_sub (TargetPosition turn_easy_started)
                                     (TipPosition turn_easy_started)))
            (Q2R (7 # 100)) /\
  TaskGetReward turn_easy_started = num_lit 1.
Proof.
  destruct (turn_dist_to_target_reward turn_easy_started
              turn_easy_started_in_episode eq_refl) as (Hd & H1 & _).
  split; [exact Hd|].
  apply H1. apply Rleb_true. rewrite Hd.
  change (sqrt ((Q2R (7 # 100) - 0 - (0 - 0)) * (Q2R (7 # 100) - 0 - (0 - 0)) +
                (0 - 0 - (0 - 0)) * (0 - 0 - (0 - 0))) - Q2R (7 # 100)
          <= Q2R 0)%R.
  replace ((Q2R (7 # 100) - 0 - (0 - 0)) * (Q2R (7 # 100) - 0 - (0 - 0)) +
           (0 - 0 - (0 - 0)) * (0 - 0 - (0 - 0)))%R
    with (Rsqr (Q2R (7 # 100))) by (unfold Rsqr; ring).
  rewrite sqrt_Rsqr by (unfold Q2R; simpl; lra).
  unfold Q2R; simpl; lra.
Defined.

(** An asset whose geom 5 has the sizes 0.04, 0.09 and 0, with size 2 of
    geom 1 at 0 and size 1 of geom 3 at 0.08; everything else as on the
    bench. *)
Definition capsule_sizes : array R :=
  fun i =>
    if decide (i = 15%nat) then (4 / 100)%R
    else if decide (i = 16%nat) then (9 / 100)%R
    else if decide (i = 10%nat) then (8 / 100)%R
    else 0%R.

Definition capsule_model : mjModel R (@model_rest R (bench 0)) :=
  {| site_rgba := fun _ => 1%R; dof_damping := fun _ => 1%R;
     geom_size := capsule_sizes; site_pos := fun _ => 1%R;
     site_size := fun _ => 1%R; model_other := tt |}.

Definition capsule_base : @MujocoEnv R (bench 0) :=
  set_model capsule_model (bench_base 0 1%R tip_on_rim).

Definition turn_easy_capsule : @FingerEnv R (bench 0) :=
  set_base capsule_base turn_easy_fresh.

(** The three sizes of geom 5 add up to 0.13; at the bearing -pi the target
    is placed 0.12 below the hinge anchor, not 0.13. *)
Lemma turn_initialize_target_witness :
  (geom_axis (model_ capsule_base) 5 0 + geom_axis (model_ capsule_base) 5 1 +
   geom_axis (model_ capsule_base) 5 2 = 13 / 100)%R /\
  exists e' : @FingerEnv R (bench 0),
    TaskInitializeEpisode turn_easy_capsule = Ok e' /\
    site_pos (model_ (base e')) 0 = 1%R /\
    site_pos (model_ (base e')) 2 = (1 - 12 / 100)%R /\
    site_size (model_ (base e')) 0 = Q2R (7 # 100).
Proof.
  split.
  { change (4 / 100 + 9 / 100 + 0 = 13 / 100)%R. lra. }
  pose proof (turn_initialize_target "turn_easy" capsule_base 0%R
                turn_easy_capsule (or_introl eq_refl) eq_refl) as H.
  cbv zeta in H. destruct H as (e' & HI & Hx & Hz & Hs).
  exists e'. split; [exact HI|].
  split; [|split; [|exact Hs]].
  - rewrite Hx.
    change (1 + (4 / 100 + 0 + 8 / 100) * sin (- PI) = 1)%R.
    rewrite sin_neg, sin_PI. lra.
  - rewrite Hz.
    change (1 + (4 / 100 + 0 + 8 / 100) * cos (- PI) = 1 - 12 / 100)%R.
    rewrite cos_neg, cos_PI. lra.
Defined.

Definition touch_light : @FingerEnv R (bench 0) :=
  bench_env 0 true 0%R 1%R (fun _ => 0%R).

Definition touch_firm : @FingerEnv R (bench 0) :=
  bench_env 0 true 0%R 1%R (fun _ => 2%R).

Lemma touch_log1p_monotone_nonneg_witness :
  exists y y' : R,
    Touch touch_light !! 0%nat = Some y /\ Touch touch_firm !! 0%nat = Some y' /\
    y = ln (1 + 0) /\ y' = ln (1 + 2) /\ (y <= y')%R /\ ((0 <= 0)%R -> (0 <= y)%R).
Proof.
  apply (touch_log1p_monotone_nonneg touch_light touch_firm 0 0%R 2%R
           eq_refl eq_refl); lra.
Defined.

(** A record of the pool whose two target slots still hold old numbers. *)
Definition stale_record : State R :=
  <["obs:target_position" := [9%R; 9%R]]>
    (<["obs:dist_to_target" := [9%R]]> ∅).

Definition after_one_step : @FingerEnv R (bench 0) * State R :=
  Step spin_at_threshold (fun _ => 0%R) stale_record.

Lemma state_record_fields_witness :
  after_one_step.2 !! "obs:velocity" = Some [(-15)%R; (-15)%R; (-15)%R] /\
  after_one_step.2 !! "obs:target_position" =
    stale_record !! "obs:target_position" /\
  after_one_step.2 !! "obs:dist_to_target" =
    stale_record !! "obs:dist_to_target".
Proof.
  destruct (state_record_fields tt after_one_step.1 stale_record
              after_one_step.2
              (emits_step spin_at_threshold (fun _ => 0%R) stale_record _ _
                 eq_refl))
    as (_ & Hv & _ & _ & _ & _ & _ & [Ht Hd] & _).
  split; [exact Hv | split; [exact Ht | exact Hd]].
Defined.

(** The spin variant does not assign the two target slots. *)
Lemma WriteState_spin_target_slots (e : @FingerEnv R (bench 0))
    (allocated : State R) :
  is_spin_ e = true ->
  WriteState e allocated !! "obs:target_position" =
    allocated !! "obs:target_position" /\
  WriteState e allocated !! "obs:dist_to_target" =
    allocated !! "obs:dist_to_target".
Proof. unfold WriteState. intros ->. simpl. by simplify_map_eq. Qed.

(** C9 (as stated).  The record a spin step returns does expose
    target_position and dist_to_target: both slots are declared for it and
    it carries them, here with the numbers the allocated record held. *)
Lemma spin_record_exposes_target_slots :
  is_spin_ after_one_step.1 = true /\
  ("obs:target_position", {| shape := [2%Z]; bounds := None |})
    ∈ StateSpec "spin" /\
  ("obs:dist_to_target", {| shape := []; bounds := None |})
    ∈ StateSpec "spin" /\
  after_one_step.2 !! "obs:target_position" = Some [9%R; 9%R] /\
  after_one_step.2 !! "obs:dist_to_target" = Some [9%R].
Proof.
  split; [reflexivity|].
  split; [unfold StateSpec; key_present|].
  split; [unfold StateSpec; key_present|].
  destruct (WriteState_spin_target_slots after_one_step.1 stale_record eq_refl)
    as [Ht Hd].
  split; [exact Ht | exact Hd].
Qed.

Lemma spin_ignores_target_radius_witness :
  TaskGetReward (set_target_radius 5%R spin_at_threshold) =
    TaskGetReward spin_at_threshold /\
  WriteState (set_target_radius 5%R spin_at_threshold) ∅ =
    WriteState spin_at_threshold ∅.
Proof.
  destruct (spin_ignores_target_radius (bench_base 0 1%R (fun _ => (-15)%R))
              0%R spin_at_threshold eq_refl) as [_ H].
  destruct (H 5%R (bench_base 0 1%R (fun _ => (-15)%R)) (fun _ => 0%R) ∅)
    as (_ & _ & _ & Hr & Hw).
  split; [exact Hr | exact Hw].
Defined.

Lemma SetRandomJointAngles_accepts_first_free_witness :
  exists e' : @FingerEnv R (bench 0),
    SetRandomJointAngles 1000 spin_at_threshold = Ok e' /\
    base e' = Nat.iter 1 sample_attempt (base spin_at_threshold) /\
    ncon (data_ (base e')) = 0%Z.
Proof.
  apply (SetRandomJointAngles_accepts_first_free spin_at_threshold 0);
    [lia | intros j Hj; lia | reflexivity].
Defined.

(** Construction by name. *)
Example FingerEnv_new_names :
  FingerEnv_new "spin" (bench_base 0 1%R tip_on_rim) 0%R = Ok spin_named /\
  FingerEnv_new "turn_easy" (bench_base 0 1%R tip_on_rim) 0%R =
    Ok turn_easy_fresh /\
  FingerEnv_new "turn" (bench_base 0 1%R tip_on_rim) 0%R =
    Throw (runtime_error "Unknown task_name for dmc finger.") /\
  FingerEnv_new "" (bench_base 0 1%R tip_on_rim) 0%R =
    Throw ConfigurationError /\
  FingerEnv_new "Spin" (bench_base 0 1%R tip_on_rim) 0%R =
    Throw ConfigurationError.
Proof. repeat split; reflexivity. Qed.

(** A spinner on a bench where every sample ends with one contact. *)
Definition spin_crowded : @FingerEnv R (bench 1) :=
  bench_env 1 true 0%R 1%R (fun _ => 0%R).

Lemma SetRandomJointAngles_exhausted_returns_witness :
  exists e' : @FingerEnv R (bench 1),
    SetRandomJointAngles 1000 spin_crowded = Ok e' /\
    gen_ (base e') = 1000%nat /\
    ncon (data_ (base e')) = 1%Z.
Proof.
  destruct (SetRandomJointAngles_exhausted_returns spin_crowded) as [Hr _].
  { intros j _.
    rewrite (proj2 (bench_attempts 1 0 (base spin_crowded)) j). lia. }
  eexists. split; [exact Hr|]. cbn [base set_base]. split.
  - apply (proj1 (bench_attempts 1 (Z.to_nat 1000) (base spin_crowded))).
  - apply (proj2 (bench_attempts 1 0 (base spin_crowded)) 999%nat).
Defined.

Lemma Reset_completes_in_contact_witness :
  exists e' : @FingerEnv R (bench 1),
    Reset spin_crowded ∅ = Ok (e', WriteState e' ∅) /\
    ncon (data_ (base e')) <> 0%Z.
Proof.
  apply (Reset_completes_in_contact spin_crowded ∅).
  intros m d. simpl. lia.
Defined.

(** Every colour entry of the bench asset is 1, so both target indicators
    start opaque. *)
Lemma spin_initialize_writes_witness :
  exists e' : @FingerEnv R (bench 0),
    TaskInitializeEpisode spin_at_threshold = Ok e' /\
    dof_damping (model_ (base e')) 2 = Q2R (3 # 100) /\
    site_alpha (model_ (base e')) 0 = Q2R 0 /\
    site_channel (model_ (base e')) 3 0 = Q2R 0 /\
    site_alpha (model_ (base e')) 3 = 1%R.
Proof.
  exact (spin_initialize_writes spin_at_threshold eq_refl).
Defined.

(** *** Over binary64

    The thresholds at and around their boundaries, whatever the three
    [<cmath>] functions are. *)

Section Binary64.
Variables libm_sin libm_cos libm_log1p : float -> float.

#[local] Instance binary64 : MjtNum float :=
  binary64_MjtNum libm_sin libm_cos libm_log1p.

Definition spinning (hinge_velocity : float) : @FingerEnv float (bench 0) :=
  bench_env 0 true 0%float 0%float (fun _ => hinge_velocity).

(** The target sensor reads (x, z), the tip and the spinner sit at the
    origin, and the target site has radius 5. *)
Definition reaching (x z : float) : @FingerEnv float (bench 0) :=
  bench_env 0 false 5%float 5%float
    (fun i => if decide (i = 8%nat) then x
              else if decide (i = 10%nat) then z else 0%float).

(** At -15, at -15.0001 and -14.9999 (rounded to binary64), at 15 and at
    a NaN. *)
Example spin_reward_binary64 :
  TaskGetReward (spinning (-15)%float) = 1%float /\
  TaskGetReward (spinning (-0x1.e000d1b71758ep+3)%float) = 1%float /\
  TaskGetReward (spinning (-0x1.dfff2e48e8a72p+3)%float) = 0%float /\
  TaskGetReward (spinning 15%float) = 0%float /\
  TaskGetReward (spinning nan) = 0%float.
Proof. repeat split; reflexivity. Qed.

(** On the rim (distance 5 = radius), one unit in the last place outside,
    one inside, and at a NaN. *)
Example turn_reward_binary64 :
  DistToTarget (reaching 3 4) = 0%float /\
  TaskGetReward (reaching 3 4) = 1%float /\
  TaskGetReward (reaching 3 0x1.0000000000001p+2) = 0%float /\
  TaskGetReward (reaching 3 0x1.fffffffffffffp+1) = 1%float /\
  TaskGetReward (reaching nan 4) = 0%float.
Proof. repeat split; reflexivity. Qed.

End Binary64.

(** ** More facts *)

Section MoreFacts.
Context {num : Type} {N : MjtNum num} {E : Engine num}.

(** What [WriteState] leaves in each slot. *)
Lemma WriteState_lookup (e : FingerEnv) (allocated : State num) :
  WriteState e allocated !! "obs:position" = Some (BoundedPosition e) /\
  WriteState e allocated !! "obs:velocity" = Some (Velocity e) /\
  WriteState e allocated !! "obs:touch" = Some (Touch e) /\
  WriteState e allocated !! "reward" = Some [reward_ (base e)] /\
  WriteState e allocated !! "discount" = Some [discount_ (base e)] /\
  (is_spin_ e = false ->
     WriteState e allocated !! "obs:target_position" = Some (TargetPosition e) /\
     WriteState e allocated !! "obs:dist_to_target" = Some [DistToTarget e]).
Proof.
  unfold WriteState. destruct (is_spin_ e); simpl;
    repeat split; try done; by simplify_map_eq.
Qed.

(** X3.  [SetRandomJointAngles] raises its error exactly when the bound is
    0; for a negative bound it returns without having drawn a sample. *)
Theorem SetRandomJointAngles_throws_iff_zero (n : Z) (e : FingerEnv) :
  (SetRandomJointAngles n e = Throw InitializationExhaustedError <-> n = 0%Z) /\
  (forall err, SetRandomJointAngles n e = Throw err ->
     err = InitializationExhaustedError) /\
  ((n < 0)%Z -> SetRandomJointAngles n e = Ok e).
Proof.
  unfold SetRandomJointAngles.
  destruct (Z.eqb_spec 0 n) as [<-|Hn].
  - split; [done|]. split; [|intros Hneg; lia].
    intros err Herr. congruence.
  - split; [split; [done | intros Hz; by destruct Hn]|].
    split; [done|].
    intros Hneg. replace (Z.to_nat n) with O by lia.
    unfold sample_loop. by destruct e.
Qed.


(** The loop as a count of samples: it draws [k] of them, each but the last
    in contact, and stops short of its budget only on a free sample. *)
Lemma sample_loop_count (fuel : nat) (i n : Z) (b : MujocoEnv) :
  exists k,
    (k <= fuel)%nat /\ (Z.of_nat k <= Z.max 0 (n - i))%Z /\
    sample_loop fuel i n b = Nat.iter k sample_attempt b /\
    (forall j, (S j < k)%nat ->
       ncon (data_ (Nat.iter (S j) sample_attempt b)) <> 0%Z) /\
    ((k < fuel)%nat -> (Z.of_nat k < n - i)%Z ->
       (0 < k)%nat /\ ncon (data_ (Nat.iter k sample_attempt b)) = 0%Z).
Proof.
  revert i b. induction fuel as [|fuel IH]; intros i b.
  { exists O. repeat split; try done; try lia. }
  unfold sample_loop; fold sample_loop.
  destruct (Z.ltb_spec i n) as [Hlt|Hge].
  2:{ exists O. repeat split; try done; lia. }
  destruct (Z.eqb_spec (ncon (data_ (sample_attempt b))) 0) as [Hfree|Hbusy].
  { exists 1%nat. repeat split; try done; lia. }
  destruct (IH (i + 1)%Z (sample_attempt b)) as (k & Hk & Hkn & Hloop & Hb & Hf).
  exists (S k). split; [lia|]. split; [lia|].
  split; [by rewrite Nat.iter_succ_r|].
  split.
  - intros [|j] Hj; [done|].
    rewrite Nat.iter_succ_r. apply Hb. lia.
  - intros Hk' Hkn'. split; [lia|].
    rewrite Nat.iter_succ_r. apply Hf; lia.
Qed.

(** X4.  A call that returns has drawn at most [max_attempts] samples, all
    but the last of them in contact; when it used fewer than
    [max_attempts], the last one is free of contact. *)
Theorem SetRandomJointAngles_sample_count (n : Z) (e e' : FingerEnv) :
  SetRandomJointAngles n e = Ok e' ->
  exists k,
    (Z.of_nat k <= Z.max 0 n)%Z /\
    base e' = Nat.iter k sample_attempt (base e) /\
    (forall j, (S j < k)%nat ->
       ncon (data_ (Nat.iter (S j) sample_attempt (base e))) <> 0%Z) /\
    ((Z.of_nat k < n)%Z -> (0 < k)%nat /\ ncon (data_ (base e')) = 0%Z).
Proof.
  unfold SetRandomJointAngles.
  destruct (Z.eqb_spec 0 n) as [_|_]; [done|]. intros [= <-].
  destruct (sample_loop_count (Z.to_nat n) 0 n (base e))
    as (k & Hk & Hkn & Hloop & Hb & Hf).
  exists k. cbn [base set_base]. rewrite Hloop.
  split; [lia|]. split; [done|]. split; [done|].
  intros Hlt. apply Hf; lia.
Qed.

(** X5.  Episode initialisation always returns: the error of
    [SetRandomJointAngles] cannot be reached with the bound it is called
    with.  It leaves the variant, the target radius and the bounds of the
    distribution as they are. *)
Theorem TaskInitializeEpisode_always_returns (e : FingerEnv) :
  exists e',
    TaskInitializeEpisode e = Ok e' /\
    is_spin_ e' = is_spin_ e /\
    target_radius_ e' = target_radius_ e /\
    dist_uniform_ e' = dist_uniform_ e.
Proof.
  destruct (TaskInitializeEpisode_returns e) as [e' HI].
  exists e'. split; [done|]. by apply TaskInitializeEpisode_members.
Qed.

(** X6.  Episode initialisation writes the model at three places only: for
    the spin variant entries 3 and 12 of the site colours and entry 2 of
    the damping, for the turn variants entries 0 and 2 of the site
    positions and entry 0 of the site sizes. *)
Theorem TaskInitializeEpisode_model_frame (e e' : FingerEnv) (i : nat) :
  TaskInitializeEpisode e = Ok e' ->
  let m := model_ (base e) in
  let m' := model_ (base e') in
  geom_size m' i = geom_size m i /\
  (if is_spin_ e then
     (i <> 3 -> i <> 12 -> site_rgba m' i = site_rgba m i) /\
     (i <> 2 -> dof_damping m' i = dof_damping m i) /\
     site_pos m' i = site_pos m i /\
     site_size m' i = site_size m i
   else
     site_rgba m' i = site_rgba m i /\
     dof_damping m' i = dof_damping m i /\
     (i <> 0 -> i <> 2 -> site_pos m' i = site_pos m i) /\
     (i <> 0 -> site_size m' i = site_size m i)).
Proof.
  intros HI m m'. subst m m'. destruct (is_spin_ e) eqn:Hs.
  - destruct (TaskInitializeEpisode_spin e Hs)
      as (b' & HI' & Hrgba & Hdamp & Hgeom & Hpos & Hsize).
    rewrite HI' in HI. injection HI as <-. cbn [base set_base].
    rewrite Hrgba, Hdamp, Hgeom, Hpos, Hsize.
    repeat split; try done.
    + intros H3 H12. array_lookup.
    + intros H2. array_lookup.
  - destruct (TaskInitializeEpisode_turn e Hs)
      as (b' & HI' & Hpos & Hsize & Hrgba & Hdamp & Hgeom).
    rewrite HI' in HI. injection HI as <-. cbn [base set_base].
    rewrite Hrgba, Hdamp, Hgeom, Hpos, Hsize.
    repeat split; try done.
    + intros H0 H2. array_lookup.
    + intros H0. array_lookup.
Qed.


(** X7.  Initialising an episode again changes nothing in the model but,
    for the turn variants, the position of the target. *)
Theorem TaskInitializeEpisode_again (e e1 e2 : FingerEnv) (i : nat) :
  TaskInitializeEpisode e = Ok e1 ->
  TaskInitializeEpisode e1 = Ok e2 ->
  let m1 := model_ (base e1) in
  let m2 := model_ (base e2) in
  site_rgba m2 i = site_rgba m1 i /\
  dof_damping m2 i = dof_damping m1 i /\
  geom_size m2 i = geom_size m1 i /\
  site_size m2 i = site_size m1 i /\
  (is_spin_ e = true \/ (i <> 0 /\ i <> 2) -> site_pos m2 i = site_pos m1 i).
Proof.
  intros HI1 HI2 m1 m2. subst m1 m2.
  destruct (TaskInitializeEpisode_members _ _ HI1) as (Hs1 & Hr1 & _).
  destruct (is_spin_ e) eqn:Hs.
  - destruct (TaskInitializeEpisode_spin e Hs)
      as (b1 & HI1' & Hrgba1 & Hdamp1 & _).
    destruct (TaskInitializeEpisode_spin e1 Hs1)
      as (b2 & HI2' & Hrgba2 & Hdamp2 & Hgeom2 & Hpos2 & Hsize2).
    rewrite HI1' in HI1. injection HI1 as <-.
    rewrite HI2' in HI2. injection HI2 as <-.
    cbn [base set_base] in *.
    rewrite Hrgba2, Hdamp2, Hgeom2, Hpos2, Hsize2, Hrgba1, Hdamp1.
    repeat split; try done; array_lookup.
  - destruct (TaskInitializeEpisode_turn e Hs)
      as (b1 & HI1' & _ & Hsize1 & _).
    destruct (TaskInitializeEpisode_turn e1 Hs1)
      as (b2 & HI2' & Hpos2 & Hsize2 & Hrgba2 & Hdamp2 & Hgeom2).
    rewrite HI1' in HI1. injection HI1 as <-.
    rewrite HI2' in HI2. injection HI2 as <-.
    cbn [base set_base target_radius_] in *.
    rewrite Hrgba2, Hdamp2, Hgeom2, Hpos2, Hsize2, Hsize1.
    repeat split; try done; [array_lookup|].
    intros [?|[H0 H2]]; [done|]. array_lookup.
Qed.

(** X8.  The reward takes the two values 0.0 and 1.0 only, and it can be
    read off the record written in the same state: off the third entry of
    the velocity for the spin variant, off dist_to_target for the turn
    variants. *)
Theorem reward_from_record (e : FingerEnv) (allocated : State num) :
  (TaskGetReward e = num_lit 1 \/ TaskGetReward e = num_lit 0) /\
  (if is_spin_ e then
     exists v h,
       WriteState e allocated !! "obs:velocity" = Some v /\
       v !! 2 = Some h /\
       TaskGetReward e = float_of_bool (num_leb h (num_opp (num_lit 15)))
   else
     exists d,
       WriteState e allocated !! "obs:dist_to_target" = Some [d] /\
       TaskGetReward e = float_of_bool (num_leb d (num_lit 0))).
Proof.
  destruct (WriteState_lookup e allocated) as (_ & Hv & _ & _ & _ & Ht).
  split.
  - unfold TaskGetReward, float_of_bool.
    destruct (is_spin_ e); destruct (num_leb _ _); auto.
  - destruct (is_spin_ e) eqn:Hs.
    + exists (Velocity e), (HingeVelocity e).
      split; [done|]. split; [done|]. by apply TaskGetReward_spin.
    + exists (DistToTarget e).
      split; [by apply Ht|]. by apply TaskGetReward_turn.
Qed.

(** The sensor entries the observation is built from: the out-of-plane
    coordinates 6, 9 and 12 are not among them. *)
Definition sensors_read : list nat := [0; 1; 2; 3; 4; 5; 7; 8; 10; 11; 13; 14; 15].

(** X9.  The record and the reward depend on the state only through the
    variant, the stored reward and discount, the thirteen sensor entries
    read, and (for the turn variants) the size of the target site. *)
Theorem WriteState_reads (e e' : FingerEnv) (allocated : State num) :
  is_spin_ e' = is_spin_ e ->
  reward_ (base e') = reward_ (base e) ->
  discount_ (base e') = discount_ (base e) ->
  Forall (fun i => sensordata (data_ (base e')) i = sensordata (data_ (base e)) i)
         sensors_read ->
  (is_spin_ e = false ->
     site_size (model_ (base e')) 0 = site_size (model_ (base e)) 0) ->
  WriteState e' allocated = WriteState e allocated /\
  TaskGetReward e' = TaskGetReward e.
Proof.
  intros Hs Hr Hd Hsens Hsize. unfold sensors_read in Hsens.
  repeat (apply Forall_cons_1 in Hsens as [? Hsens]).
  unfold WriteState, TaskGetReward, DistToTarget, ToTarget, BoundedPosition,
    Velocity, Touch, TargetPosition, TipPosition, HingeVelocity.
  rewrite Hs, Hr, Hd. simpl.
  repeat match goal with
         | H : sensordata _ _ = _ |- _ => rewrite H; clear H
         end.
  destruct (is_spin_ e); simpl; [done|]. by rewrite Hsize.
Qed.


(** X10.  [WriteState] and [StateSpec] agree: every slot written is declared
    (the reward apart, which the header does not declare), every declared
    slot of fixed shape that is written receives as many numbers as its
    shape says, and the turn variants write every declared slot. *)
Theorem WriteState_matches_StateSpec {Config : Type} (conf : Config)
    (e : FingerEnv) (allocated : State num) (key : string) :
  (key ∈ written_fields e ->
     key = "reward" \/ exists sp, (key, sp) ∈ StateSpec conf) /\
  (forall sp, (key, sp) ∈ StateSpec conf -> fixed_shape sp ->
     key ∈ written_fields e ->
     exists v, WriteState e allocated !! key = Some v /\
               Z.of_nat (length v) = entries sp) /\
  (forall sp, (key, sp) ∈ StateSpec conf -> is_spin_ e = false ->
     key ∈ written_fields e).
Proof.
  destruct (WriteState_lookup e allocated) as (Hp & Hv & Ht & _ & _ & Hturn).
  unfold written_fields, StateSpec. split; [|split].
  - intros Hkey. destruct (is_spin_ e); simpl in Hkey;
      repeat (apply elem_of_cons in Hkey as [->|Hkey];
              [first [by left | right; eexists; key_present]|]);
      by apply elem_of_nil in Hkey.
  - intros sp Hsp Hfix Hkey.
    repeat (apply elem_of_cons in Hsp as [[= -> ->]|Hsp]);
      [..|by apply elem_of_nil in Hsp].
    + by eexists.
    + by eexists.
    + by eexists.
    + destruct (is_spin_ e); [by key_absent Hkey|].
      eexists. split; [by apply Hturn|done].
    + destruct (is_spin_ e); [by key_absent Hkey|].
      eexists. split; [by apply Hturn|done].
    + unfold fixed_shape in Hfix. simpl in Hfix.
      apply Forall_cons_1 in Hfix as [Hneg _]. lia.
  - intros sp Hsp ->. simpl.
    repeat (apply elem_of_cons in Hsp as [[= -> ->]|Hsp]);
      [key_present ..|by apply elem_of_nil in Hsp].
Qed.

End MoreFacts.

(** ** Geometry over the reals *)

Section Geometry.
Context {E : Engine R}.
Local Open Scope R_scope.

Lemma sqrt_le_iff (s r : R) : 0 <= s -> (sqrt s <= r <-> 0 <= r /\ s <= r * r).
Proof.
  intros Hs. pose proof (sqrt_pos s) as Hpos.
  pose proof (sqrt_sqrt s Hs) as Hsq. split.
  - intros Hle. split; [lra|]. nra.
  - intros [Hr Hle]. rewrite <- (sqrt_square r Hr). by apply sqrt_le_1_alt.
Qed.

(** X11.  For the turn variants the reward is 1.0 exactly when the tip lies
    in the closed disc around the target whose radius is the size of the
    target site; a negative size leaves no such point.  dist_to_target is
    never below minus that size, and reaches it only when tip and target
    coincide. *)
Theorem turn_reward_inside_disc (e : FingerEnv) (dx dz : R) :
  is_spin_ e = false ->
  ToTarget e = [dx; dz] ->
  let r := site_size (model_ (base e)) 0%nat in
  (TaskGetReward e = num_lit 1 <-> 0 <= r /\ dx * dx + dz * dz <= r * r) /\
  - r <= DistToTarget e /\
  (DistToTarget e = - r <-> dx = 0 /\ dz = 0).
Proof.
  intros Hturn Hto r.
  assert (Hs : 0 <= dx * dx + dz * dz) by nra.
  assert (Hd : DistToTarget e = sqrt (dx * dx + dz * dz) - r).
  { unfold DistToTarget. by rewrite Hto. }
  rewrite (TaskGetReward_turn e Hturn), float_of_bool_one, Hd.
  pose proof (sqrt_pos (dx * dx + dz * dz)) as Hpos.
  split; [|split].
  - change (Rleb (sqrt (dx * dx + dz * dz) - r) (Q2R 0) = true <->
            0 <= r /\ dx * dx + dz * dz <= r * r).
    rewrite Rleb_true, <- (sqrt_le_iff _ r Hs). unfold Q2R; simpl. lra.
  - lra.
  - split.
    + intros Heq. assert (H0 : sqrt (dx * dx + dz * dz) = 0) by lra.
      apply sqrt_eq_0 in H0; [|done]. nra.
    + intros [-> ->]. replace (0 * 0 + 0 * 0) with 0 by ring.
      rewrite sqrt_0. lra.
Qed.

(** X12.  For the turn variants, episode initialisation puts the target in
    the plane on the circle around the hinge anchor whose radius is the
    link radius, and leaves its coordinate off the plane alone. *)
Theorem target_on_circle (e e' : FingerEnv) :
  is_spin_ e = false ->
  TaskInitializeEpisode e = Ok e' ->
  let hinge_x := xanchor (data_ (base e)) 6%nat in
  let hinge_z := xanchor (data_ (base e)) 8%nat in
  let radius := link_radius (model_ (base e)) in
  let target := site_pos (model_ (base e')) in
  (target 0%nat - hinge_x) * (target 0%nat - hinge_x) +
  (target 2%nat - hinge_z) * (target 2%nat - hinge_z) = radius * radius /\
  target 1%nat = site_pos (model_ (base e)) 1%nat.
Proof.
  intros Hturn HI hinge_x hinge_z radius target. subst target.
  destruct (TaskInitializeEpisode_turn e Hturn) as (b' & HI' & Hpos & _).
  rewrite HI' in HI. injection HI as <-. cbn [base set_base].
  rewrite Hpos. split; [|array_lookup].
  replace (<[2%nat:=_]> _ 0%nat)
    with (hinge_x + radius * sin (target_bearing e)) by array_lookup.
  replace (<[2%nat:=_]> _ 2%nat)
    with (hinge_z + radius * cos (target_bearing e)) by array_lookup.
  pose proof (sin2_cos2 (target_bearing e)) as Hsc. unfold Rsqr in Hsc.
  nra.
Qed.

(** X13.  A constructed environment keeps the base it was given and draws
    bearings between -pi and pi; it is the spin variant exactly for the
    name "spin"; a turn variant carries a positive target radius, at most
    0.07 and smaller for "turn_hard" than for "turn_easy". *)
Theorem FingerEnv_new_variant (task_name : string) (b : MujocoEnv) (uninit : R)
    (e : FingerEnv) :
  FingerEnv_new task_name b uninit = Ok e ->
  base e = b /\
  dist_uniform_ e = (- PI, PI) /\
  (is_spin_ e = true <-> task_name = "spin") /\
  (is_spin_ e = false ->
     0 < target_radius_ e <= 7 / 100 /\
     (target_radius_ e < 7 / 100 <-> task_name = "turn_hard")).
Proof.
  unfold FingerEnv_new.
  destruct (decide (task_name = "turn_easy")) as [->|Heasy].
  { intros [= <-]. cbn. repeat split; try done; unfold Q2R; simpl; lra. }
  rewrite (bool_decide_eq_false_2 _ Heasy).
  destruct (decide (task_name = "turn_hard")) as [->|Hhard].
  { intros [= <-]. cbn. repeat split; try done; unfold Q2R; simpl; lra. }
  rewrite (bool_decide_eq_false_2 _ Hhard).
  destruct (decide (task_name = "spin")) as [->|Hspin].
  { intros [= <-]. cbn. repeat split; try done. }
  rewrite (bool_decide_eq_false_2 _ Hspin). done.
Qed.

(** X14.  The touch transform compresses: a reading that is not negative
    gives a touch entry between 0 and the reading, which is 0 only for the
    reading 0; it is strictly increasing, so distinct readings stay
    distinct. *)
Theorem touch_compressive (e e' : FingerEnv) (k : nat) (x x' : R) :
  raw_touch e !! k = Some x ->
  raw_touch e' !! k = Some x' ->
  0 <= x -> 0 <= x' ->
  exists y y',
    Touch e !! k = Some y /\ Touch e' !! k = Some y' /\
    0 <= y <= x /\
    (y = 0 <-> x = 0) /\
    (x < x' <-> y < y') /\
    (y = y' <-> x = x').
Proof.
  intros Hx Hx' H0 H0'.
  exists (ln (1 + x)), (ln (1 + x')).
  rewrite !Touch_log1p, !list_lookup_fmap, Hx, Hx'.
  split; [done|]. split; [done|].
  assert (Hmono : forall a c, 0 <= a -> a < c -> ln (1 + a) < ln (1 + c)).
  { intros a c Ha Hac. apply ln_increasing; lra. }
  assert (Hle : forall a, 0 <= a -> ln (1 + a) <= a).
  { intros a Ha. rewrite <- (ln_exp a) at 2.
    destruct (Rle_lt_or_eq_dec _ _ (exp_ineq1_le a)) as [Hlt|Heq].
    - left. apply ln_increasing; lra.
    - rewrite Heq. lra. }
  assert (Hz : ln (1 + 0) = 0) by (rewrite Rplus_0_r; apply ln_1).
  split; [split; [|by apply Hle]|].
  { destruct H0 as [Hpos| <-]; [|lra]. rewrite <- Hz. left. by apply Hmono. }
  split.
  { split; [|intros ->; exact Hz].
    intros Hy. destruct H0 as [Hpos| <-]; [|done].
    pose proof (Hmono 0 x ltac:(lra) Hpos). lra. }
  split.
  - split; [by apply Hmono|].
    intros Hy. destruct (Rlt_le_dec x x') as [|[Hlt| ->]]; [done| |lra].
    pose proof (Hmono x' x H0' Hlt). lra.
  - split; [|by intros ->].
    intros Hy. destruct (Rtotal_order x x') as [Hlt|[->|Hgt]]; [|done|].
    + pose proof (Hmono x x' H0 Hlt). lra.
    + pose proof (Hmono x' x H0' Hgt). lra.
Qed.

End Geometry.

(** *** More of the bench, over the reals *)

Definition spin_sampled : @FingerEnv R (bench 0) :=
  match SetRandomJointAngles 1000 spin_at_threshold with
  | Ok e => e
  | Throw _ => spin_at_threshold
  end.

Lemma SetRandomJointAngles_sample_count_witness :
  exists k,
    (Z.of_nat k <= Z.max 0 1000)%Z /\
    base spin_sampled = Nat.iter k sample_attempt (base spin_at_threshold) /\
    (forall j, (S j < k)%nat ->
       ncon (data_ (Nat.iter (S j) sample_attempt (base spin_at_threshold)))
         <> 0%Z) /\
    ((Z.of_nat k < 1000)%Z ->
       (0 < k)%nat /\ ncon (data_ (base spin_sampled)) = 0%Z).
Proof.
  exact (SetRandomJointAngles_sample_count 1000 spin_at_threshold spin_sampled
           eq_refl).
Defined.

Lemma TaskInitializeEpisode_model_frame_witness :
  geom_size (model_ (base turn_easy_started)) 1 = 1%R /\
  site_rgba (model_ (base turn_easy_started)) 1 = 1%R /\
  dof_damping (model_ (base turn_easy_started)) 1 = 1%R /\
  site_pos (model_ (base turn_easy_started)) 1 = 1%R /\
  site_size (model_ (base turn_easy_started)) 1 = 1%R.
Proof.
  destruct (TaskInitializeEpisode_model_frame turn_easy_fresh
              turn_easy_started 1 eq_refl) as (Hg & Hc & Hd & Hp & Hs).
  split; [exact Hg|]. split; [exact Hc|]. split; [exact Hd|].
  split; [apply Hp; lia | apply Hs; lia].
Defined.

Definition turn_easy_restarted : @FingerEnv R (bench 0) :=
  match TaskInitializeEpisode turn_easy_started with
  | Ok e => e
  | Throw _ => turn_easy_started
  end.

Lemma TaskInitializeEpisode_again_witness :
  site_size (model_ (base turn_easy_restarted)) 0 =
    site_size (model_ (base turn_easy_started)) 0 /\
  site_pos (model_ (base turn_easy_restarted)) 1 =
    site_pos (model_ (base turn_easy_started)) 1.
Proof.
  destruct (TaskInitializeEpisode_again turn_easy_fresh turn_easy_started
              turn_easy_restarted 0 eq_refl eq_refl) as (_ & _ & _ & Hs & _).
  destruct (TaskInitializeEpisode_again turn_easy_fresh turn_easy_started
              turn_easy_restarted 1 eq_refl eq_refl) as (_ & _ & _ & _ & Hp).
  split; [exact Hs | apply Hp; right; lia].
Defined.

(** The spinner at the threshold again, on another asset and with other
    readings on the three coordinates off the plane. *)
Definition spin_elsewhere : @FingerEnv R (bench 0) :=
  bench_env 0 true 7%R 5%R
    (fun i => if decide (i ∈ [6; 9; 12]%nat) then 99%R else (-15)%R).

Lemma WriteState_reads_witness :
  WriteState spin_elsewhere ∅ = WriteState spin_at_threshold ∅ /\
  TaskGetReward spin_elsewhere = TaskGetReward spin_at_threshold.
Proof.
  apply (WriteState_reads spin_at_threshold spin_elsewhere ∅);
    [reflexivity | reflexivity | reflexivity | | intros H; discriminate H].
  repeat constructor.
Defined.

Lemma WriteState_matches_StateSpec_witness :
  exists v, WriteState spin_at_threshold ∅ !! "obs:touch" = Some v /\
            Z.of_nat (length v) = 2%Z.
Proof.
  destruct (WriteState_matches_StateSpec tt spin_at_threshold ∅ "obs:touch")
    as (_ & H & _).
  apply (H {| shape := [2%Z]; bounds := None |}).
  - key_present.
  - repeat constructor. simpl. lia.
  - key_present.
Defined.

Lemma turn_reward_inside_disc_witness :
  (- site_size (model_ (base turn_easy_started)) 0%nat
     <= DistToTarget turn_easy_started)%R.
Proof.
  exact (proj1 (proj2 (turn_reward_inside_disc turn_easy_started
                         (Q2R (7 # 100) - 0 - (0 - 0))%R (0 - 0 - (0 - 0))%R
                         eq_refl eq_refl))).
Defined.

Lemma target_on_circle_witness :
  site_pos (model_ (base turn_easy_started)) 1 = 1%R.
Proof.
  exact (proj2 (target_on_circle turn_easy_fresh turn_easy_started
                  eq_refl eq_refl)).
Defined.

Definition turn_hard_fresh : @FingerEnv R (bench 0) :=
  bench_env 0 false (Q2R (3 # 100)) 1%R tip_on_rim.

Lemma FingerEnv_new_variant_witness :
  (0 < target_radius_ turn_hard_fresh <= 7 / 100)%R /\
  (target_radius_ turn_hard_fresh < 7 / 100)%R.
Proof.
  destruct (FingerEnv_new_variant "turn_hard" (bench_base 0 1%R tip_on_rim)
              0%R turn_hard_fresh eq_refl) as (_ & _ & _ & H).
  destruct (H eq_refl) as [Hr Hh].
  split; [exact Hr | apply Hh; reflexivity].
Defined.

Lemma touch_compressive_witness :
  exists y y' : R,
    Touch touch_light !! 0%nat = Some y /\ Touch touch_firm !! 0%nat = Some y' /\
    (0 <= y <= 0)%R /\ (y = 0%R <-> 0%R = 0%R) /\
    ((0 < 2)%R <-> (y < y')%R) /\ (y = y' <-> 0%R = 2%R).
Proof.
  apply (touch_compressive touch_light touch_firm 0 0%R 2%R eq_refl eq_refl);
    lra.
Defined.
